(** * CloudSchedule: schedule descriptor, evaluator and local/cloud tracker

    Shallow embedding of [src/property/types/CloudSchedule.h].

    - [unsigned int] is the 32-bit unsigned integer of the supported boards;
      it is a [Z] in [0, 2^32) and every operation that can leave that range
      has its wrap-around written out ([UInt.wrap]).
    - [%] with a zero divisor has no defined result in C++; the operator is
      modelled by [UInt.umod], which yields [Undefined] there, and
      [Schedule.isActive] returns an [outcome].
    - [getLocalTime()] belongs to [TimeService]; the evaluator takes the
      value it returned as the argument [now]. *)

From Stdlib Require Import ZArith List Bool Lia.
Import ListNotations.
Local Open Scope Z_scope.

(** ** Machine integers and partial results *)

(** Result of a computation that may execute an undefined operation. *)
Inductive outcome (A : Type) : Type :=
| Returns (a : A)
| Undefined.
Arguments Returns {A} a.
Arguments Undefined {A}.

Definition obind {A B : Type} (m : outcome A) (k : A -> outcome B) : outcome B :=
  match m with
  | Returns a => k a
  | Undefined => Undefined
  end.

Notation "x <- m ;; k" := (obind m (fun x => k))
  (at level 61, m at next level, right associativity).

Module UInt.

Definition modulus : Z := 2 ^ 32.

Definition max_value : Z := modulus - 1.

Definition in_range (x : Z) : Prop := 0 <= x < modulus.

Definition wrap (x : Z) : Z := x mod modulus.

Definition mul (a b : Z) : Z := wrap (a * b).

Definition sub (a b : Z) : Z := wrap (a - b).

(** [a % b]: no result when [b] is zero. *)
Definition umod (a b : Z) : outcome Z :=
  if b =? 0 then Undefined else Returns (a mod b).

(** [1 << n] for a small non-negative [n]. *)
Definition bit (n : Z) : Z := wrap (Z.shiftl 1 n).

End UInt.

(** ** Constants of the header *)

Definition SCHEDULE_UNIT_MASK : Z := 0xC0000000.
Definition SCHEDULE_UNIT_SHIFT : Z := 30.

Definition SCHEDULE_TYPE_MASK : Z := 0x3C000000.
Definition SCHEDULE_TYPE_SHIFT : Z := 26.

Definition SCHEDULE_MONTH_MASK : Z := 0x0000FF00.
Definition SCHEDULE_MONTH_SHIFT : Z := 8.

Definition SCHEDULE_REP_MASK : Z := 0x03FFFFFF.
Definition SCHEDULE_WEEK_MASK : Z := 0x000000FF.
Definition SCHEDULE_DAY_MASK : Z := 0x000000FF.

Definition SCHEDULE_ONE_SHOT : Z := 0xFFFFFFFF.

(** Modelled from the spec: the unit lengths [SECONDS], [MINUTES], [HOURS] and
    [DAYS] come from [AIoTC_Const.h], which is not part of the sources at
    hand; the spec gives Seconds -> 1, Minutes -> 60, Hours -> 3600,
    Days -> 86400. *)
Definition SECONDS : Z := 1.
Definition MINUTES : Z := 60.
Definition HOURS : Z := 3600.
Definition DAYS : Z := 86400.

(** ** Enumerations

    Both are [enum class ... : int]: a [static_cast] keeps the numeric value,
    also when no enumerator has it, so a value is the integer itself. *)

Module ScheduleUnit.
Definition t : Type := Z.
Definition Seconds : t := 0.
Definition Minutes : t := 1.
Definition Hours : t := 2.
Definition Days : t := 3.
End ScheduleUnit.

Module ScheduleType.
Definition t : Type := Z.
Definition OneShot : t := 0.
Definition FixedDelta : t := 1.
Definition Weekly : t := 2.
Definition Monthly : t := 3.
Definition Yearly : t := 4.
End ScheduleType.

(** ** Broken-down time

    [gmtime] is the C library's.  Only [tm_wday], [tm_mday] and [tm_mon] are
    read by the schedule.  The argument is the [unsigned int] clock value
    converted to [time_t], hence never negative; the civil date is computed
    from the day number by the usual era / day-of-era decomposition of the
    proleptic Gregorian calendar. *)

Record tm : Type := mk_tm {
  tm_mday : Z;   (* 1 .. 31 *)
  tm_mon : Z;    (* 0 .. 11 *)
  tm_wday : Z    (* 0 .. 6, 0 = Sunday *)
}.

Definition gmtime (time : Z) : tm :=
  let days := time / 86400 in
  let z := days + 719468 in
  let era := z / 146097 in
  let doe := z - era * 146097 in
  let yoe := (doe - doe / 1460 + doe / 36524 - doe / 146096) / 365 in
  let doy := doe - (365 * yoe + yoe / 4 - yoe / 100) in
  let mp := (5 * doy + 2) / 153 in
  let d := doy - (153 * mp + 2) / 5 + 1 in
  let m := if mp <? 10 then mp + 3 else mp - 9 in
  {| tm_mday := d; tm_mon := m - 1; tm_wday := (days + 4) mod 7 |}.

(** ** class Schedule *)

Record Schedule : Type := mk_Schedule {
  frm : Z;
  to : Z;
  len : Z;
  msk : Z
}.

Definition getScheduleUnit (msk : Z) : ScheduleUnit.t :=
  Z.shiftr (Z.land msk SCHEDULE_UNIT_MASK) SCHEDULE_UNIT_SHIFT.

Definition getScheduleType (msk : Z) : ScheduleType.t :=
  Z.shiftr (Z.land msk SCHEDULE_TYPE_MASK) SCHEDULE_TYPE_SHIFT.

Definition getScheduleRepetition (msk : Z) : Z :=
  Z.land msk SCHEDULE_REP_MASK.

Definition getScheduleWeekMask (msk : Z) : Z :=
  Z.land msk SCHEDULE_WEEK_MASK.

Definition getScheduleDay (msk : Z) : Z :=
  Z.land msk SCHEDULE_DAY_MASK.

Definition getScheduleMonth (msk : Z) : Z :=
  Z.shiftr (Z.land msk SCHEDULE_MONTH_MASK) SCHEDULE_MONTH_SHIFT.

Definition isScheduleOneShot (msk : Z) : bool :=
  getScheduleType msk =? ScheduleType.OneShot.

Definition isScheduleFixed (msk : Z) : bool :=
  getScheduleType msk =? ScheduleType.FixedDelta.

Definition isScheduleWeekly (msk : Z) : bool :=
  getScheduleType msk =? ScheduleType.Weekly.

Definition isScheduleMonthly (msk : Z) : bool :=
  getScheduleType msk =? ScheduleType.Monthly.

Definition isScheduleYearly (msk : Z) : bool :=
  getScheduleType msk =? ScheduleType.Yearly.

Definition isScheduleInSeconds (msk : Z) : bool :=
  if isScheduleFixed msk
  then getScheduleUnit msk =? ScheduleUnit.Seconds
  else false.

Definition isScheduleInMinutes (msk : Z) : bool :=
  if isScheduleFixed msk
  then getScheduleUnit msk =? ScheduleUnit.Minutes
  else false.

Definition isScheduleInHours (msk : Z) : bool :=
  if isScheduleFixed msk
  then getScheduleUnit msk =? ScheduleUnit.Hours
  else false.

Definition isScheduleInDays (msk : Z) : bool :=
  if isScheduleFixed msk
  then getScheduleUnit msk =? ScheduleUnit.Days
  else false.

Definition getCurrentDayMask (time : Z) : Z :=
  UInt.bit (tm_wday (gmtime time)).

Definition getCurrentDay (time : Z) : Z :=
  tm_mday (gmtime time).

Definition getCurrentMonth (time : Z) : Z :=
  tm_mon (gmtime time).

Definition checkSchedulePeriod (now frm to : Z) : bool :=
  if (now >=? frm) && ((now <? to) || (to =? 0)) then true else false.

(** The C++ body is a chain of [if]s that fall through to the next one when
    the inner comparison fails; the nesting below keeps that order. *)
Definition checkScheduleMask (now msk : Z) : bool :=
  if isScheduleFixed msk || isScheduleOneShot msk then true
  else if isScheduleWeekly msk
          && negb (Z.land (getCurrentDayMask now) (getScheduleWeekMask msk) =? 0)
  then true
  else if isScheduleMonthly msk
          && (getCurrentDay now =? getScheduleDay msk)
  then true
  else if isScheduleYearly msk
          && ((getCurrentDay now =? getScheduleDay msk)
              && (getCurrentMonth now =? getScheduleMonth msk))
  then true
  else false.

Definition getScheduleDelta (msk : Z) : Z :=
  if isScheduleInSeconds msk then UInt.mul SECONDS (getScheduleRepetition msk)
  else if isScheduleInMinutes msk then UInt.mul MINUTES (getScheduleRepetition msk)
  else if isScheduleInHours msk then UInt.mul HOURS (getScheduleRepetition msk)
  else if isScheduleInDays msk then UInt.mul DAYS (getScheduleRepetition msk)
  else if isScheduleWeekly msk || isScheduleMonthly msk || isScheduleYearly msk
  then DAYS
  else SCHEDULE_ONE_SHOT.

(** Seconds in one unit, in the words of the spec (not a function of the
    header; [getScheduleDelta_fixed] compares it with the code). *)
Definition unitSeconds (u : ScheduleUnit.t) : Z :=
  if u =? ScheduleUnit.Seconds then 1
  else if u =? ScheduleUnit.Minutes then 60
  else if u =? ScheduleUnit.Hours then 3600
  else 86400.

(** [Schedule::isActive], with the clock reading as [now]. *)
Definition isActive (s : Schedule) (now : Z) : outcome bool :=
  if checkSchedulePeriod now (frm s) (to s) then
    if checkScheduleMask now (msk s) then
      let delta := getScheduleDelta (msk s) in
      r <- UInt.umod (UInt.sub (Z.max now (frm s)) (Z.min now (frm s))) delta ;;
      if r <=? len s then Returns true else Returns false
    else Returns false
  else Returns false.

(** [Schedule::operator=] and the comparisons. *)
Definition Schedule_assign (_self aSchedule : Schedule) : Schedule :=
  {| frm := frm aSchedule; to := to aSchedule;
     len := len aSchedule; msk := msk aSchedule |}.

Definition Schedule_eq (a b : Schedule) : bool :=
  (frm a =? frm b) && (to a =? to b) && (len a =? len b) && (msk a =? msk b).

Definition Schedule_ne (a b : Schedule) : bool :=
  negb (Schedule_eq a b).

(** ** class CloudSchedule *)

(** Modelled from the spec: the base class [Property] ([Property.h]) is not
    part of the sources at hand.  The spec gives it a last-modification
    timestamp, "updated whenever local is reassigned"; the update stores the
    reading of the property's clock, passed here as [clock]. *)
Record Property : Type := mk_Property {
  last_local_change_timestamp : Z
}.

Definition updateLocalTimestamp (clock : Z) (_p : Property) : Property :=
  {| last_local_change_timestamp := clock |}.

(** Modelled from the spec: the serializer of [Property] is not part of the
    sources at hand.  The spec describes [appendScalar(value)], which appends
    one scalar to the outbound attribute sequence, and [readScalar()], which
    takes the next scalar of the inbound sequence; a read from an exhausted
    sequence leaves the destination as it was. *)
Inductive CborError : Type :=
| CborNoError
| CborUnknownError.

Definition appendAttribute (value : Z) (outbound : list Z) : CborError * list Z :=
  (CborNoError, outbound ++ [value]).

Definition setAttribute (value : Z) (inbound : list Z) : Z * list Z :=
  match inbound with
  | v :: rest => (v, rest)
  | [] => (value, [])
  end.

(** [CHECK_CBOR(expr)]: leave the enclosing function with the error of
    [expr], if there is one. *)
Definition CHECK_CBOR (r : CborError * list Z)
    (k : list Z -> CborError * list Z) : CborError * list Z :=
  match fst r with
  | CborNoError => k (snd r)
  | e => (e, snd r)
  end.

Module CloudSchedule.

(** The two members and the base-class part. *)
Record t : Type := mk {
  _value : Schedule;
  _cloud_value : Schedule;
  base : Property
}.

(** The two constructors; [p] is the state of the base-class part. *)
Definition make_default (p : Property) : t :=
  {| _value := mk_Schedule 0 0 0 0;
     _cloud_value := mk_Schedule 0 0 0 0;
     base := p |}.

Definition make (p : Property) (frm to len msk : Z) : t :=
  {| _value := mk_Schedule frm to len msk;
     _cloud_value := mk_Schedule frm to len msk;
     base := p |}.

Definition isDifferentFromCloud (c : t) : bool :=
  Schedule_ne (_value c) (_cloud_value c).

(** [CloudSchedule::operator=(Schedule)]. *)
Definition assign (clock : Z) (c : t) (aSchedule : Schedule)
  : t :=
  {| _value := {| frm := frm aSchedule; to := to aSchedule;
                  len := len aSchedule; msk := msk aSchedule |};
     _cloud_value := _cloud_value c;
     base := updateLocalTimestamp clock (base c) |}.

Definition getCloudValue (c : t) : Schedule := _cloud_value c.

Definition getValue (c : t) : Schedule := _value c.

Definition isActive (c : t) (now : Z) : outcome bool :=
  isActive (_value c) now.

Definition fromCloudToLocal (c : t) : t :=
  {| _value := Schedule_assign (_value c) (_cloud_value c);
     _cloud_value := _cloud_value c;
     base := base c |}.

Definition fromLocalToCloud (c : t) : t :=
  {| _value := _value c;
     _cloud_value := Schedule_assign (_cloud_value c) (_value c);
     base := base c |}.

Definition appendAttributesToCloud (c : t) (outbound : list Z)
  : CborError * list Z :=
  CHECK_CBOR (appendAttribute (frm (_value c)) outbound) (fun o1 =>
  CHECK_CBOR (appendAttribute (to (_value c)) o1) (fun o2 =>
  CHECK_CBOR (appendAttribute (len (_value c)) o2) (fun o3 =>
  CHECK_CBOR (appendAttribute (msk (_value c)) o3) (fun o4 =>
  (CborNoError, o4))))).

Definition setAttributesFromCloud (c : t) (inbound : list Z)
  : t * list Z :=
  let cv := _cloud_value c in
  let '(f, i1) := setAttribute (frm cv) inbound in
  let '(e, i2) := setAttribute (to cv) i1 in
  let '(l, i3) := setAttribute (len cv) i2 in
  let '(m, i4) := setAttribute (msk cv) i3 in
  ({| _value := _value c;
      _cloud_value := {| frm := f; to := e; len := l; msk := m |};
      base := base c |}, i4).

End CloudSchedule.

(** ** Example schedules *)

(** The schedule of the FixedDelta example: unit Seconds, type FixedDelta,
    repetition 10, starting at 0 with length 2 and no end. *)
Definition every_ten_seconds : Schedule := mk_Schedule 0 0 2 0x0400000A.

(** A Weekly schedule that selects Monday only (bit 1), starting on Monday
    2021-11-01 00:00:00 UTC, one hour long, without end. *)
Definition mondays_only : Schedule := mk_Schedule 1635724800 0 3600 0x08000002.

(** * Properties *)

(** ** Decoding facts *)

Lemma getScheduleUnit_mod (m : Z) :
  getScheduleUnit m = (m / 2 ^ 30) mod 4.
Proof.
  unfold getScheduleUnit, SCHEDULE_UNIT_MASK, SCHEDULE_UNIT_SHIFT.
  rewrite Z.shiftr_land.
  change (Z.shiftr 3221225472 30) with (Z.ones 2).
  rewrite Z.land_ones by lia.
  rewrite Z.shiftr_div_pow2 by lia. reflexivity.
Qed.

Lemma getScheduleType_mod (m : Z) :
  getScheduleType m = (m / 2 ^ 26) mod 16.
Proof.
  unfold getScheduleType, SCHEDULE_TYPE_MASK, SCHEDULE_TYPE_SHIFT.
  rewrite Z.shiftr_land.
  change (Z.shiftr 1006632960 26) with (Z.ones 4).
  rewrite Z.land_ones by lia.
  rewrite Z.shiftr_div_pow2 by lia. reflexivity.
Qed.

Lemma getScheduleUnit_range (m : Z) : 0 <= getScheduleUnit m < 4.
Proof. rewrite getScheduleUnit_mod. apply Z.mod_pos_bound. lia. Qed.

Lemma getScheduleType_range (m : Z) : 0 <= getScheduleType m < 16.
Proof. rewrite getScheduleType_mod. apply Z.mod_pos_bound. lia. Qed.

Lemma getScheduleRepetition_mod (m : Z) :
  getScheduleRepetition m = m mod 2 ^ 26.
Proof.
  unfold getScheduleRepetition, SCHEDULE_REP_MASK.
  change 67108863 with (Z.ones 26). apply Z.land_ones. lia.
Qed.

Lemma getScheduleWeekMask_mod (m : Z) :
  getScheduleWeekMask m = m mod 2 ^ 8.
Proof.
  unfold getScheduleWeekMask, SCHEDULE_WEEK_MASK.
  change 255 with (Z.ones 8). apply Z.land_ones. lia.
Qed.

Lemma land_pow2_eqb_0 (i x : Z) :
  0 <= i -> (Z.land (2 ^ i) x =? 0) = negb (Z.testbit x i).
Proof.
  intros Hi. destruct (Z.testbit x i) eqn:Hb; simpl.
  - apply Z.eqb_neq. intros H0.
    assert (Hbit : Z.testbit (Z.land (2 ^ i) x) i = true).
    { rewrite Z.land_spec, Z.pow2_bits_true, Hb by assumption. reflexivity. }
    rewrite H0, Z.bits_0 in Hbit. discriminate.
  - apply Z.eqb_eq. apply Z.bits_inj'. intros n Hn.
    rewrite Z.land_spec, Z.bits_0, Z.pow2_bits_eqb by assumption.
    destruct (Z.eqb_spec i n) as [->|]; [rewrite Hb|]; reflexivity.
Qed.

Lemma tm_wday_range (time : Z) : 0 <= tm_wday (gmtime time) < 7.
Proof. unfold gmtime; cbn [tm_wday]. apply Z.mod_pos_bound. lia. Qed.

Lemma getCurrentDayMask_pow2 (time : Z) :
  getCurrentDayMask time = 2 ^ tm_wday (gmtime time).
Proof.
  unfold getCurrentDayMask, UInt.bit, UInt.wrap, UInt.modulus.
  pose proof (tm_wday_range time) as Hw.
  rewrite Z.shiftl_1_l. apply Z.mod_small. split.
  - apply Z.pow_nonneg. lia.
  - apply Z.pow_lt_mono_r; lia.
Qed.

(** ** The window check *)

Lemma checkSchedulePeriod_spec (now f t : Z) :
  checkSchedulePeriod now f t = (now >=? f) && ((now <? t) || (t =? 0)).
Proof.
  unfold checkSchedulePeriod.
  destruct ((now >=? f) && ((now <? t) || (t =? 0))); reflexivity.
Qed.

Lemma checkSchedulePeriod_true (now f t : Z) :
  checkSchedulePeriod now f t = true <-> f <= now /\ (now < t \/ t = 0).
Proof.
  rewrite checkSchedulePeriod_spec, andb_true_iff, orb_true_iff.
  rewrite Z.geb_le, Z.ltb_lt, Z.eqb_eq. reflexivity.
Qed.

Lemma isActive_outside_window (s : Schedule) (now : Z) :
  checkSchedulePeriod now (frm s) (to s) = false ->
  isActive s now = Returns false.
Proof. intros H. unfold isActive. rewrite H. reflexivity. Qed.

Lemma isActive_no_match (s : Schedule) (now : Z) :
  checkScheduleMask now (msk s) = false ->
  isActive s now = Returns false.
Proof.
  intros H. unfold isActive. rewrite H.
  destruct (checkSchedulePeriod now (frm s) (to s)); reflexivity.
Qed.

(** Inside the window the unsigned difference of the larger and the smaller
    of [now] and [frm] is [now - frm]. *)
Lemma elapsed_in_window (now f t : Z) :
  UInt.in_range now -> UInt.in_range f ->
  checkSchedulePeriod now f t = true ->
  UInt.sub (Z.max now f) (Z.min now f) = now - f.
Proof.
  unfold UInt.in_range, UInt.sub, UInt.wrap. intros Hn Hf Hw.
  apply checkSchedulePeriod_true in Hw. destruct Hw as [Hle _].
  rewrite Z.max_l, Z.min_r by lia. apply Z.mod_small. lia.
Qed.

(** With a non-zero delta, a matching schedule inside its window is active
    exactly when the remainder of the elapsed time is at most [len]. *)
Lemma isActive_occurrence (s : Schedule) (now : Z) :
  UInt.in_range now -> UInt.in_range (frm s) ->
  checkSchedulePeriod now (frm s) (to s) = true ->
  checkScheduleMask now (msk s) = true ->
  getScheduleDelta (msk s) <> 0 ->
  isActive s now
  = Returns ((now - frm s) mod getScheduleDelta (msk s) <=? len s).
Proof.
  intros Hn Hf Hw Hm Hd. unfold isActive. rewrite Hw, Hm.
  rewrite (elapsed_in_window _ _ _ Hn Hf Hw).
  unfold UInt.umod. apply Z.eqb_neq in Hd. rewrite Hd. cbn [obind].
  destruct (_ <=? _); reflexivity.
Qed.

(** With a zero delta the remainder is not defined. *)
Lemma isActive_zero_delta (s : Schedule) (now : Z) :
  checkSchedulePeriod now (frm s) (to s) = true ->
  checkScheduleMask now (msk s) = true ->
  getScheduleDelta (msk s) = 0 ->
  isActive s now = Undefined.
Proof.
  intros Hw Hm Hd. unfold isActive. rewrite Hw, Hm, Hd. reflexivity.
Qed.

(** ** The delta *)

Lemma getScheduleDelta_fixed (m : Z) :
  getScheduleType m = ScheduleType.FixedDelta ->
  getScheduleDelta m
  = UInt.mul (unitSeconds (getScheduleUnit m)) (getScheduleRepetition m).
Proof.
  intros Ht. unfold getScheduleDelta, isScheduleInSeconds, isScheduleInMinutes,
    isScheduleInHours, isScheduleInDays, isScheduleFixed, unitSeconds.
  rewrite Ht, Z.eqb_refl.
  pose proof (getScheduleUnit_range m) as Hu.
  unfold ScheduleUnit.Seconds, ScheduleUnit.Minutes, ScheduleUnit.Hours,
    ScheduleUnit.Days.
  destruct (Z.eqb_spec (getScheduleUnit m) 0); [reflexivity|].
  destruct (Z.eqb_spec (getScheduleUnit m) 1); [reflexivity|].
  destruct (Z.eqb_spec (getScheduleUnit m) 2); [reflexivity|].
  destruct (Z.eqb_spec (getScheduleUnit m) 3); [reflexivity|lia].
Qed.

Lemma getScheduleDelta_oneshot (m : Z) :
  getScheduleType m = ScheduleType.OneShot ->
  getScheduleDelta m = SCHEDULE_ONE_SHOT.
Proof.
  intros Ht. unfold getScheduleDelta, isScheduleInSeconds, isScheduleInMinutes,
    isScheduleInHours, isScheduleInDays, isScheduleFixed, isScheduleWeekly,
    isScheduleMonthly, isScheduleYearly.
  rewrite Ht. reflexivity.
Qed.

Lemma getScheduleDelta_weekly (m : Z) :
  getScheduleType m = ScheduleType.Weekly ->
  getScheduleDelta m = DAYS.
Proof.
  intros Ht. unfold getScheduleDelta, isScheduleInSeconds, isScheduleInMinutes,
    isScheduleInHours, isScheduleInDays, isScheduleFixed, isScheduleWeekly,
    isScheduleMonthly, isScheduleYearly.
  rewrite Ht. reflexivity.
Qed.

Lemma checkScheduleMask_fixed (now m : Z) :
  getScheduleType m = ScheduleType.FixedDelta ->
  checkScheduleMask now m = true.
Proof.
  intros Ht. unfold checkScheduleMask, isScheduleFixed. rewrite Ht. reflexivity.
Qed.

Lemma checkScheduleMask_oneshot (now m : Z) :
  getScheduleType m = ScheduleType.OneShot ->
  checkScheduleMask now m = true.
Proof.
  intros Ht. unfold checkScheduleMask, isScheduleFixed, isScheduleOneShot.
  rewrite Ht. reflexivity.
Qed.

Lemma checkScheduleMask_weekly (now m : Z) :
  getScheduleType m = ScheduleType.Weekly ->
  checkScheduleMask now m
  = Z.testbit (getScheduleWeekMask m) (tm_wday (gmtime now)).
Proof.
  intros Ht.
  unfold checkScheduleMask, isScheduleFixed, isScheduleOneShot,
    isScheduleWeekly, isScheduleMonthly, isScheduleYearly.
  rewrite Ht. cbn [Z.eqb ScheduleType.Weekly ScheduleType.FixedDelta
    ScheduleType.OneShot ScheduleType.Monthly ScheduleType.Yearly
    Pos.eqb orb andb].
  rewrite getCurrentDayMask_pow2.
  rewrite land_pow2_eqb_0 by apply tm_wday_range.
  rewrite negb_involutive.
  destruct (Z.testbit _ _); reflexivity.
Qed.

Lemma checkScheduleMask_unknown_type (now m : Z) :
  5 <= getScheduleType m ->
  checkScheduleMask now m = false.
Proof.
  intros Ht.
  unfold checkScheduleMask, isScheduleFixed, isScheduleOneShot,
    isScheduleWeekly, isScheduleMonthly, isScheduleYearly,
    ScheduleType.Weekly, ScheduleType.FixedDelta, ScheduleType.OneShot,
    ScheduleType.Monthly, ScheduleType.Yearly.
  destruct (Z.eqb_spec (getScheduleType m) 1); [lia|].
  destruct (Z.eqb_spec (getScheduleType m) 0); [lia|].
  destruct (Z.eqb_spec (getScheduleType m) 2); [lia|].
  destruct (Z.eqb_spec (getScheduleType m) 3); [lia|].
  destruct (Z.eqb_spec (getScheduleType m) 4); [lia|].
  reflexivity.
Qed.

(** ** The evaluator *)

(** C1 (what the code does): for a FixedDelta mask with repetition count 0
    the delta is 0 and, for every [now] inside the window, [isActive] takes
    the remainder of a division by zero: it has no defined result, instead of
    returning false. *)
Theorem isActive_fixed_zero_repetition (s : Schedule) (now : Z) :
  getScheduleType (msk s) = ScheduleType.FixedDelta ->
  getScheduleRepetition (msk s) = 0 ->
  checkSchedulePeriod now (frm s) (to s) = true ->
  getScheduleDelta (msk s) = 0 /\ isActive s now = Undefined.
Proof.
  intros Ht Hr Hw.
  assert (Hd : getScheduleDelta (msk s) = 0).
  { rewrite (getScheduleDelta_fixed _ Ht), Hr.
    unfold UInt.mul, UInt.wrap. rewrite Z.mul_0_r. reflexivity. }
  split; [exact Hd|].
  apply isActive_zero_delta; [exact Hw | | exact Hd].
  apply checkScheduleMask_fixed, Ht.
Qed.

Lemma isActive_fixed_zero_repetition_witness :
  let s := mk_Schedule 0 0 0 0x04000000 in
  getScheduleDelta (msk s) = 0 /\ isActive s 0 = Undefined.
Proof.
  apply (isActive_fixed_zero_repetition (mk_Schedule 0 0 0 0x04000000) 0);
    reflexivity.
Defined.

(** C2: [isActive] returns false whenever the window check
    [now >= from && (now < to || to == 0)] fails; the upper bound is
    exclusive ([isActive(to)] is false when [to] is not 0); and with
    [to = 0] the check passes for every [now >= from]. *)
Theorem isActive_window (s : Schedule) (now : Z) :
  checkSchedulePeriod now (frm s) (to s)
    = (now >=? frm s) && ((now <? to s) || (to s =? 0))
  /\ (checkSchedulePeriod now (frm s) (to s) = false ->
      isActive s now = Returns false)
  /\ (to s <> 0 -> isActive s (to s) = Returns false)
  /\ (to s = 0 -> frm s <= now ->
      checkSchedulePeriod now (frm s) (to s) = true).
Proof.
  split; [apply checkSchedulePeriod_spec|].
  split; [apply isActive_outside_window|].
  split.
  - intros Hto. apply isActive_outside_window.
    rewrite checkSchedulePeriod_spec, Z.ltb_irrefl.
    apply Z.eqb_neq in Hto. rewrite Hto. apply andb_false_r.
  - intros Hto Hle. apply checkSchedulePeriod_true. lia.
Qed.

Lemma isActive_window_witness :
  isActive (mk_Schedule 100 200 50 0) 99 = Returns false
  /\ isActive (mk_Schedule 100 200 50 0) 200 = Returns false
  /\ checkSchedulePeriod 4000000000 100 0 = true.
Proof.
  split; [|split].
  - destruct (isActive_window (mk_Schedule 100 200 50 0) 99) as (_ & H & _).
    apply H. reflexivity.
  - destruct (isActive_window (mk_Schedule 100 200 50 0) 200) as (_ & _ & H & _).
    apply H. discriminate.
  - destruct (isActive_window (mk_Schedule 100 0 50 0) 4000000000)
      as (_ & _ & _ & H).
    apply H; [reflexivity | cbn [frm]; lia].
Defined.

(** C3 fails as stated: the OneShot schedule from 0 with length 0 and no end
    is active at the last clock value 0xFFFFFFFF, although [now - from]
    exceeds [len], because the elapsed time equals the sentinel and leaves
    remainder 0. *)
Lemma isActive_oneshot_sentinel_elapsed :
  let s := mk_Schedule 0 0 0 0 in
  let now := 0xFFFFFFFF in
  UInt.in_range now
  /\ getScheduleType (msk s) = ScheduleType.OneShot
  /\ checkSchedulePeriod now (frm s) (to s) = true
  /\ isActive s now = Returns true
  /\ ~ (now - frm s <= len s).
Proof.
  cbv zeta. split; [|split; [|split; [|split]]]; try reflexivity.
  - unfold UInt.in_range, UInt.modulus. lia.
  - cbn [frm len]. lia.
Qed.

(** C3 (amended): for a OneShot mask the delta is the sentinel 0xFFFFFFFF
    and, inside the window, [isActive] is true iff
    [(now - from) mod 0xFFFFFFFF <= len]; this is [now - from <= len] unless
    the elapsed time is exactly 0xFFFFFFFF. *)
Theorem isActive_oneshot (s : Schedule) (now : Z) :
  UInt.in_range now -> UInt.in_range (frm s) ->
  getScheduleType (msk s) = ScheduleType.OneShot ->
  checkSchedulePeriod now (frm s) (to s) = true ->
  getScheduleDelta (msk s) = 0xFFFFFFFF
  /\ isActive s now = Returns ((now - frm s) mod 0xFFFFFFFF <=? len s)
  /\ (now - frm s <> 0xFFFFFFFF ->
      (isActive s now = Returns true <-> now - frm s <= len s)).
Proof.
  intros Hn Hf Ht Hw.
  pose proof (getScheduleDelta_oneshot _ Ht) as Hd.
  unfold SCHEDULE_ONE_SHOT in Hd.
  assert (Ha : isActive s now
               = Returns ((now - frm s) mod 0xFFFFFFFF <=? len s)).
  { rewrite <- Hd. apply isActive_occurrence; try assumption.
    - apply checkScheduleMask_oneshot, Ht.
    - rewrite Hd. discriminate. }
  split; [exact Hd|]. split; [exact Ha|].
  intros Hne. rewrite Ha.
  apply checkSchedulePeriod_true in Hw. destruct Hw as [Hle _].
  unfold UInt.in_range, UInt.modulus in Hn, Hf.
  rewrite Z.mod_small by lia.
  split.
  - intros H. injection H as H. apply Z.leb_le, H.
  - intros H. f_equal. apply Z.leb_le, H.
Qed.

Lemma isActive_oneshot_witness :
  let s := mk_Schedule 1000 0 30 0 in
  getScheduleDelta (msk s) = 0xFFFFFFFF
  /\ isActive s 1020 = Returns ((1020 - frm s) mod 0xFFFFFFFF <=? len s)
  /\ (1020 - frm s <> 0xFFFFFFFF ->
      (isActive s 1020 = Returns true <-> 1020 - frm s <= len s)).
Proof.
  apply (isActive_oneshot (mk_Schedule 1000 0 30 0) 1020);
    first [ reflexivity | unfold UInt.in_range, UInt.modulus; cbn; lia ].
Defined.

(** C4: for unit=Seconds, repetition=10, from=0, length=2 and no window end
    the delta is 10 = repetition x unitSeconds(Seconds), [isActive] is true
    at 0,1,2,10,11,12,20,21,22 and false at 3..9 and 13..19, and at every
    clock value it is true iff [now mod 10 <= 2]. *)
Theorem isActive_every_ten_seconds :
  getScheduleType (msk every_ten_seconds) = ScheduleType.FixedDelta
  /\ getScheduleUnit (msk every_ten_seconds) = ScheduleUnit.Seconds
  /\ getScheduleRepetition (msk every_ten_seconds) = 10
  /\ unitSeconds ScheduleUnit.Seconds = 1
  /\ getScheduleDelta (msk every_ten_seconds)
     = getScheduleRepetition (msk every_ten_seconds)
       * unitSeconds (getScheduleUnit (msk every_ten_seconds))
  /\ getScheduleDelta (msk every_ten_seconds) = 10
  /\ Forall (fun now => isActive every_ten_seconds now = Returns true)
       [0; 1; 2; 10; 11; 12; 20; 21; 22]
  /\ Forall (fun now => isActive every_ten_seconds now = Returns false)
       [3; 4; 5; 6; 7; 8; 9; 13; 14; 15; 16; 17; 18; 19]
  /\ (forall now, UInt.in_range now ->
        isActive every_ten_seconds now = Returns (now mod 10 <=? 2)).
Proof.
  do 6 (split; [reflexivity|]).
  split; [repeat constructor|].
  split; [repeat constructor|].
  intros now Hn.
  assert (Hw : checkSchedulePeriod now (frm every_ten_seconds)
                 (to every_ten_seconds) = true).
  { apply checkSchedulePeriod_true. unfold UInt.in_range in Hn.
    cbn [every_ten_seconds frm to]. lia. }
  rewrite isActive_occurrence; try assumption.
  - cbn [every_ten_seconds frm len]. rewrite Z.sub_0_r. reflexivity.
  - unfold UInt.in_range, UInt.modulus. cbn [every_ten_seconds frm]. lia.
  - reflexivity.
  - discriminate.
Qed.

Lemma isActive_every_ten_seconds_witness :
  isActive every_ten_seconds 4294967292 = Returns (4294967292 mod 10 <=? 2).
Proof.
  destruct isActive_every_ten_seconds as (_ & _ & _ & _ & _ & _ & _ & _ & H).
  apply H. unfold UInt.in_range, UInt.modulus. lia.
Defined.

(** C5: with [to <> 0] and [from > to] the window check fails for every
    [now], so [isActive] returns false for every [now]. *)
Theorem isActive_inverted_window (s : Schedule) (now : Z) :
  to s <> 0 -> frm s > to s ->
  checkSchedulePeriod now (frm s) (to s) = false
  /\ isActive s now = Returns false.
Proof.
  intros Hto Hgt.
  assert (Hw : checkSchedulePeriod now (frm s) (to s) = false).
  { rewrite checkSchedulePeriod_spec.
    apply Z.eqb_neq in Hto. rewrite Hto, orb_false_r.
    destruct (Z.geb_spec now (frm s)) as [Hge|]; [|reflexivity].
    destruct (Z.ltb_spec now (to s)); [lia|reflexivity]. }
  split; [exact Hw|]. apply isActive_outside_window, Hw.
Qed.

Lemma isActive_inverted_window_witness :
  checkSchedulePeriod 150 200 100 = false
  /\ isActive (mk_Schedule 200 100 4294967295 0) 150 = Returns false.
Proof.
  apply (isActive_inverted_window (mk_Schedule 200 100 4294967295 0) 150).
  - discriminate.
  - reflexivity.
Defined.

(** C6: for a Weekly mask, [isActive] returns false when the bit of the
    current weekday (bit i for weekday i, 0 = Sunday) is clear in the low 8
    bits of the mask; when it is set and [now] is inside the window, the
    delta is 86400 and [isActive] is the occurrence test
    [(now - from) mod 86400 <= len]. *)
Theorem isActive_weekly (s : Schedule) (now : Z) :
  getScheduleType (msk s) = ScheduleType.Weekly ->
  (Z.testbit (getScheduleWeekMask (msk s)) (tm_wday (gmtime now)) = false ->
   isActive s now = Returns false)
  /\ (Z.testbit (getScheduleWeekMask (msk s)) (tm_wday (gmtime now)) = true ->
      UInt.in_range now -> UInt.in_range (frm s) ->
      checkSchedulePeriod now (frm s) (to s) = true ->
      getScheduleDelta (msk s) = 86400
      /\ isActive s now = Returns ((now - frm s) mod 86400 <=? len s)).
Proof.
  intros Ht.
  pose proof (checkScheduleMask_weekly now _ Ht) as Hm.
  pose proof (getScheduleDelta_weekly _ Ht) as Hd. unfold DAYS in Hd.
  split.
  - intros Hb. apply isActive_no_match. rewrite Hm. exact Hb.
  - intros Hb Hn Hf Hw. split; [exact Hd|].
    rewrite <- Hd. apply isActive_occurrence; try assumption.
    + rewrite Hm. exact Hb.
    + rewrite Hd. discriminate.
Qed.

Lemma isActive_weekly_witness :
  (* Tuesday 2021-11-02 00:10:00: the weekday bit is clear *)
  isActive mondays_only 1635811800 = Returns false
  (* Monday 2021-11-08 00:10:00: the weekday bit is set *)
  /\ getScheduleDelta (msk mondays_only) = 86400
  /\ isActive mondays_only 1636330200
     = Returns ((1636330200 - frm mondays_only) mod 86400 <=? len mondays_only).
Proof.
  split.
  - destruct (isActive_weekly mondays_only 1635811800) as [H _];
      [reflexivity|]. apply H. reflexivity.
  - destruct (isActive_weekly mondays_only 1636330200) as [_ H];
      [reflexivity|].
    apply H.
    + reflexivity.
    + unfold UInt.in_range, UInt.modulus. lia.
    + unfold UInt.in_range, UInt.modulus. cbn [mondays_only frm]. lia.
    + reflexivity.
Defined.

(** C10: when the 4-bit type field of the mask holds 5 or more, no type
    predicate of [checkScheduleMask] matches and [isActive] returns false
    for every [now], window and length. *)
Theorem isActive_unknown_type (s : Schedule) (now : Z) :
  5 <= getScheduleType (msk s) ->
  checkScheduleMask now (msk s) = false
  /\ isActive s now = Returns false.
Proof.
  intros Ht.
  pose proof (checkScheduleMask_unknown_type now _ Ht) as Hm.
  split; [exact Hm|]. apply isActive_no_match, Hm.
Qed.

Lemma isActive_unknown_type_witness :
  checkScheduleMask 10 0x14000000 = false
  /\ isActive (mk_Schedule 0 0 4294967295 0x14000000) 10 = Returns false.
Proof.
  apply (isActive_unknown_type (mk_Schedule 0 0 4294967295 0x14000000) 10).
  vm_compute. discriminate.
Defined.

(** ** The tracker *)

Lemma Schedule_eq_true (a b : Schedule) : Schedule_eq a b = true <-> a = b.
Proof.
  unfold Schedule_eq. rewrite !andb_true_iff, !Z.eqb_eq.
  destruct a as [f1 t1 l1 m1], b as [f2 t2 l2 m2]; cbn [frm to len msk].
  split.
  - intros [[[-> ->] ->] ->]. reflexivity.
  - intros H. injection H as -> -> -> ->. repeat split.
Qed.

Lemma Schedule_eq_refl (a : Schedule) : Schedule_eq a a = true.
Proof. apply Schedule_eq_true. reflexivity. Qed.

Lemma Schedule_assign_eq (a b : Schedule) : Schedule_assign a b = b.
Proof. destruct b. reflexivity. Qed.

Lemma assign_value (clock : Z) (t : CloudSchedule.t) (s : Schedule) :
  CloudSchedule._value (CloudSchedule.assign clock t s) = s.
Proof. destruct s. reflexivity. Qed.

(** C7 fails as stated: assigning the descriptor the tracker was initialized
    with leaves the two sides equal, so the tracker is not divergent after
    that [setLocal]. *)
Lemma isDifferentFromCloud_same_assign :
  let d := mk_Schedule 1 2 3 4 in
  let t := CloudSchedule.make (mk_Property 0) 1 2 3 4 in
  CloudSchedule._value t = d /\ CloudSchedule._cloud_value t = d
  /\ CloudSchedule.isDifferentFromCloud (CloudSchedule.assign 7 t d) = false.
Proof. cbv zeta. repeat split. Qed.

(** C7 (amended): a tracker initialized on both sides with [d] is not
    divergent; after [setLocal(s)] it is divergent exactly when [s] differs
    from [d] in some field; after [push()] it is not divergent, and that
    holds after [push()] in every tracker state. *)
Theorem isDifferentFromCloud_lifecycle
    (p : Property) (d s : Schedule) (clock : Z) (t' : CloudSchedule.t) :
  let t := CloudSchedule.make p (frm d) (to d) (len d) (msk d) in
  CloudSchedule.isDifferentFromCloud t = false
  /\ CloudSchedule.isDifferentFromCloud (CloudSchedule.assign clock t s)
     = negb (Schedule_eq s d)
  /\ (CloudSchedule.isDifferentFromCloud (CloudSchedule.assign clock t s)
      = true <-> s <> d)
  /\ CloudSchedule.isDifferentFromCloud
       (CloudSchedule.fromLocalToCloud (CloudSchedule.assign clock t s))
     = false
  /\ CloudSchedule.isDifferentFromCloud (CloudSchedule.fromLocalToCloud t')
     = false.
Proof.
  cbv zeta.
  assert (Hpush : forall u, CloudSchedule.isDifferentFromCloud
                              (CloudSchedule.fromLocalToCloud u) = false).
  { intros u. unfold CloudSchedule.isDifferentFromCloud, Schedule_ne,
      CloudSchedule.fromLocalToCloud. cbn [CloudSchedule._value CloudSchedule._cloud_value].
    rewrite Schedule_assign_eq, Schedule_eq_refl. reflexivity. }
  assert (Hset : CloudSchedule.isDifferentFromCloud
                   (CloudSchedule.assign clock
                      (CloudSchedule.make p (frm d) (to d) (len d) (msk d)) s)
                 = negb (Schedule_eq s d)).
  { unfold CloudSchedule.isDifferentFromCloud, Schedule_ne.
    rewrite assign_value. destruct d. reflexivity. }
  split; [|split; [|split; [|split]]].
  - unfold CloudSchedule.isDifferentFromCloud, Schedule_ne, CloudSchedule.make.
    cbn [CloudSchedule._value CloudSchedule._cloud_value]. rewrite Schedule_eq_refl. reflexivity.
  - exact Hset.
  - rewrite Hset, negb_true_iff, <- not_true_iff_false, Schedule_eq_true.
    reflexivity.
  - apply Hpush.
  - apply Hpush.
Qed.

(** C8: serialization appends the four local fields in the order from, to,
    length, mask; deserialization reads four scalars into the cloud side in
    the same order; reading the serialized local side of [t] into any
    tracker [t0] (a fresh one included) makes its cloud side equal to the
    local descriptor of [t], consumes the whole sequence and leaves the
    local side of [t0] alone. *)
Theorem serialize_deserialize_roundtrip
    (t t0 : CloudSchedule.t) (p : Property) (out : list Z) :
  CloudSchedule.appendAttributesToCloud t out
  = (CborNoError,
     out ++ [frm (CloudSchedule._value t); to (CloudSchedule._value t); len (CloudSchedule._value t); msk (CloudSchedule._value t)])
  /\ (forall a b c d rest,
        CloudSchedule._cloud_value (fst (CloudSchedule.setAttributesFromCloud t0
                             (a :: b :: c :: d :: rest)))
        = mk_Schedule a b c d)
  /\ CloudSchedule.setAttributesFromCloud t0
       (snd (CloudSchedule.appendAttributesToCloud t []))
     = (CloudSchedule.mk (CloudSchedule._value t0) (CloudSchedule._value t)
          (CloudSchedule.base t0),
        [])
  /\ CloudSchedule._cloud_value
       (fst (CloudSchedule.setAttributesFromCloud
               (CloudSchedule.make_default p)
               (snd (CloudSchedule.appendAttributesToCloud t []))))
     = CloudSchedule._value t.
Proof.
  split; [|split; [|split]].
  - unfold CloudSchedule.appendAttributesToCloud, CHECK_CBOR, appendAttribute.
    cbn [fst snd]. rewrite <- !app_assoc. reflexivity.
  - intros a b c d rest. reflexivity.
  - destruct t as [[f e l m] c b]. reflexivity.
  - destruct t as [[f e l m] c b]. reflexivity.
Qed.

(** C9: [setLocal(s)] (the tracker's assignment operator) overwrites the four
    fields of the local descriptor with those of [s], updates the
    modification timestamp and leaves the four fields of the cloud
    descriptor unchanged. *)
Theorem assign_overwrites_local_only
    (clock : Z) (t : CloudSchedule.t) (s : Schedule) :
  let t' := CloudSchedule.assign clock t s in
  (frm (CloudSchedule._value t') = frm s /\ to (CloudSchedule._value t') = to s
   /\ len (CloudSchedule._value t') = len s /\ msk (CloudSchedule._value t') = msk s)
  /\ CloudSchedule.base t' = updateLocalTimestamp clock (CloudSchedule.base t)
  /\ last_local_change_timestamp (CloudSchedule.base t') = clock
  /\ (frm (CloudSchedule._cloud_value t') = frm (CloudSchedule._cloud_value t)
      /\ to (CloudSchedule._cloud_value t') = to (CloudSchedule._cloud_value t)
      /\ len (CloudSchedule._cloud_value t') = len (CloudSchedule._cloud_value t)
      /\ msk (CloudSchedule._cloud_value t') = msk (CloudSchedule._cloud_value t)).
Proof. cbv zeta. repeat split. Qed.

(** * Further properties of the header *)

(** ** Decoding of the mask *)

Lemma getScheduleDay_mod (m : Z) : getScheduleDay m = m mod 2 ^ 8.
Proof.
  unfold getScheduleDay, SCHEDULE_DAY_MASK.
  change 255 with (Z.ones 8). apply Z.land_ones. lia.
Qed.

Lemma getScheduleMonth_mod (m : Z) : getScheduleMonth m = (m / 2 ^ 8) mod 2 ^ 8.
Proof.
  unfold getScheduleMonth, SCHEDULE_MONTH_MASK, SCHEDULE_MONTH_SHIFT.
  rewrite Z.shiftr_land.
  change (Z.shiftr 65280 8) with (Z.ones 8).
  rewrite Z.land_ones by lia.
  rewrite Z.shiftr_div_pow2 by lia. reflexivity.
Qed.

Lemma getScheduleRepetition_range (m : Z) :
  0 <= getScheduleRepetition m < 2 ^ 26.
Proof. rewrite getScheduleRepetition_mod. apply Z.mod_pos_bound. lia. Qed.

(** Numerals for the powers of two, so that [lia] sees constant divisors. *)
Ltac pow2_numerals :=
  change (2 ^ 32) with 4294967296 in *;
  change (2 ^ 30) with 1073741824 in *;
  change (2 ^ 26) with 67108864 in *;
  change (2 ^ 25) with 33554432 in *;
  change (2 ^ 8) with 256 in *.

(** X1: the unit, type and repetition fields do not overlap and together
    cover the 32 bits: a mask is rebuilt from what the three decoders
    return, so two masks with the same unit, type and repetition are
    equal. *)
Theorem mask_fields_cover (m : Z) :
  UInt.in_range m ->
  m = getScheduleUnit m * 2 ^ 30 + getScheduleType m * 2 ^ 26
      + getScheduleRepetition m.
Proof.
  unfold UInt.in_range, UInt.modulus. intros Hm.
  rewrite getScheduleUnit_mod, getScheduleType_mod, getScheduleRepetition_mod.
  pow2_numerals. Z.to_euclidean_division_equations. lia.
Qed.

Lemma mask_fields_cover_witness :
  0xC800012C = getScheduleUnit 0xC800012C * 2 ^ 30
               + getScheduleType 0xC800012C * 2 ^ 26
               + getScheduleRepetition 0xC800012C.
Proof.
  apply (mask_fields_cover 0xC800012C).
  unfold UInt.in_range, UInt.modulus. lia.
Defined.

(** X2: a mask packed from a unit below 4, a type below 16 and a repetition
    count below 2^26 is a 32-bit value and decodes to these three values. *)
Theorem mask_fields_decode (u ty r : Z) :
  0 <= u < 4 -> 0 <= ty < 16 -> 0 <= r < 2 ^ 26 ->
  let m := u * 2 ^ 30 + ty * 2 ^ 26 + r in
  UInt.in_range m
  /\ getScheduleUnit m = u
  /\ getScheduleType m = ty
  /\ getScheduleRepetition m = r.
Proof.
  intros Hu Ht Hr m. subst m.
  rewrite getScheduleUnit_mod, getScheduleType_mod, getScheduleRepetition_mod.
  unfold UInt.in_range, UInt.modulus.
  pow2_numerals. repeat split; Z.to_euclidean_division_equations; lia.
Qed.

Lemma mask_fields_decode_witness :
  let m := 2 * 2 ^ 30 + 1 * 2 ^ 26 + 12 in
  UInt.in_range m
  /\ getScheduleUnit m = 2
  /\ getScheduleType m = 1
  /\ getScheduleRepetition m = 12.
Proof. apply (mask_fields_decode 2 1 12); lia. Defined.

(** X3: the week mask and the day of month are the same low byte of the
    repetition count, and the month is its second byte: all of them are
    below 256 and depend on the repetition field only. *)
Theorem day_month_fields_inside_repetition (m : Z) :
  getScheduleWeekMask m = getScheduleDay m
  /\ getScheduleDay m = getScheduleRepetition m mod 2 ^ 8
  /\ getScheduleMonth m = (getScheduleRepetition m / 2 ^ 8) mod 2 ^ 8
  /\ 0 <= getScheduleDay m < 256
  /\ 0 <= getScheduleMonth m < 256.
Proof.
  rewrite getScheduleWeekMask_mod, getScheduleDay_mod, getScheduleMonth_mod,
    getScheduleRepetition_mod.
  pow2_numerals. repeat split; Z.to_euclidean_division_equations; lia.
Qed.

(** ** The type and unit predicates *)

(** X4: the five type predicates exclude each other: exactly one holds when
    the type field is below 5 and none holds otherwise. *)
Theorem type_predicates_exclusive (m : Z) :
  length (filter (fun b : bool => b)
            [isScheduleOneShot m; isScheduleFixed m; isScheduleWeekly m;
             isScheduleMonthly m; isScheduleYearly m])
  = if getScheduleType m <? 5 then 1%nat else 0%nat.
Proof.
  unfold isScheduleOneShot, isScheduleFixed, isScheduleWeekly,
    isScheduleMonthly, isScheduleYearly, ScheduleType.OneShot,
    ScheduleType.FixedDelta, ScheduleType.Weekly, ScheduleType.Monthly,
    ScheduleType.Yearly.
  pose proof (getScheduleType_range m) as Hr.
  destruct (Z.eqb_spec (getScheduleType m) 0) as [->|]; [reflexivity|].
  destruct (Z.eqb_spec (getScheduleType m) 1) as [->|]; [reflexivity|].
  destruct (Z.eqb_spec (getScheduleType m) 2) as [->|]; [reflexivity|].
  destruct (Z.eqb_spec (getScheduleType m) 3) as [->|]; [reflexivity|].
  destruct (Z.eqb_spec (getScheduleType m) 4) as [->|]; [reflexivity|].
  destruct (Z.ltb_spec (getScheduleType m) 5); [lia|reflexivity].
Qed.

(** X5: exactly one of the four unit predicates holds for a FixedDelta mask
    and none holds for a mask of any other type, whatever its unit bits. *)
Theorem unit_predicates_exclusive (m : Z) :
  length (filter (fun b : bool => b)
            [isScheduleInSeconds m; isScheduleInMinutes m;
             isScheduleInHours m; isScheduleInDays m])
  = if isScheduleFixed m then 1%nat else 0%nat.
Proof.
  unfold isScheduleInSeconds, isScheduleInMinutes, isScheduleInHours,
    isScheduleInDays, ScheduleUnit.Seconds, ScheduleUnit.Minutes,
    ScheduleUnit.Hours, ScheduleUnit.Days.
  destruct (isScheduleFixed m); [|reflexivity].
  pose proof (getScheduleUnit_range m) as Hr.
  destruct (Z.eqb_spec (getScheduleUnit m) 0) as [e|]; [rewrite ?e; reflexivity|].
  destruct (Z.eqb_spec (getScheduleUnit m) 1) as [e|]; [rewrite ?e; reflexivity|].
  destruct (Z.eqb_spec (getScheduleUnit m) 2) as [e|]; [rewrite ?e; reflexivity|].
  destruct (Z.eqb_spec (getScheduleUnit m) 3) as [e|]; [rewrite ?e; reflexivity|].
  lia.
Qed.

(** ** More on the delta *)

Lemma getScheduleDelta_not_fixed (m : Z) :
  getScheduleType m <> ScheduleType.FixedDelta ->
  getScheduleDelta m
  = if (2 <=? getScheduleType m) && (getScheduleType m <=? 4)
    then DAYS else SCHEDULE_ONE_SHOT.
Proof.
  intros Hne.
  unfold getScheduleDelta, isScheduleInSeconds, isScheduleInMinutes,
    isScheduleInHours, isScheduleInDays, isScheduleFixed, isScheduleWeekly,
    isScheduleMonthly, isScheduleYearly, ScheduleType.FixedDelta,
    ScheduleType.Weekly, ScheduleType.Monthly, ScheduleType.Yearly in *.
  apply Z.eqb_neq in Hne. rewrite Hne.
  destruct (Z.eqb_spec (getScheduleType m) 2) as [e|]; [rewrite e; reflexivity|].
  destruct (Z.eqb_spec (getScheduleType m) 3) as [e|]; [rewrite e; reflexivity|].
  destruct (Z.eqb_spec (getScheduleType m) 4) as [e|]; [rewrite e; reflexivity|].
  cbn [orb].
  destruct (Z.leb_spec 2 (getScheduleType m));
    destruct (Z.leb_spec (getScheduleType m) 4); cbn [andb];
    try reflexivity; lia.
Qed.

Lemma unitSeconds_cases (u : Z) :
  0 <= u < 4 ->
  (u = 0 /\ unitSeconds u = 1) \/ (u = 1 /\ unitSeconds u = 60)
  \/ (u = 2 /\ unitSeconds u = 3600) \/ (u = 3 /\ unitSeconds u = 86400).
Proof.
  intros Hu.
  assert (Hc : u = 0 \/ u = 1 \/ u = 2 \/ u = 3) by lia.
  destruct Hc as [ -> | [ -> | [ -> | -> ] ] ]; cbn; tauto.
Qed.

Lemma getScheduleDelta_range_and_zero (m : Z) :
  UInt.in_range (getScheduleDelta m)
  /\ (getScheduleDelta m = 0 <->
      getScheduleType m = ScheduleType.FixedDelta
      /\ (getScheduleRepetition m = 0
          \/ (getScheduleUnit m = ScheduleUnit.Days
              /\ getScheduleRepetition m = 2 ^ 25))).
Proof.
  unfold UInt.in_range, UInt.modulus, ScheduleUnit.Days.
  destruct (Z.eq_dec (getScheduleType m) ScheduleType.FixedDelta) as [Ht|Ht].
  - rewrite (getScheduleDelta_fixed _ Ht).
    pose proof (getScheduleRepetition_range m) as Hr.
    destruct (unitSeconds_cases _ (getScheduleUnit_range m))
      as [[Hu ->]|[[Hu ->]|[[Hu ->]|[Hu ->]]]];
      unfold UInt.mul, UInt.wrap, UInt.modulus; pow2_numerals;
      (split; [apply Z.mod_pos_bound; lia|]);
      split; intros H;
      try (split; [exact Ht|]);
      Z.to_euclidean_division_equations; lia.
  - rewrite (getScheduleDelta_not_fixed _ Ht).
    unfold DAYS, SCHEDULE_ONE_SHOT.
    destruct (_ && _); (split; [lia|]); split.
    + discriminate.
    + intros [H _]. contradiction.
    + discriminate.
    + intros [H _]. contradiction.
Qed.

(** X6: the delta is always a 32-bit value, and it is 0 exactly for a
    FixedDelta mask whose repetition count is 0, or whose unit is Days with
    repetition count 2^25 (86400 * 2^25 wraps to 0). *)
Theorem getScheduleDelta_zero_iff (m : Z) :
  UInt.in_range (getScheduleDelta m)
  /\ (getScheduleDelta m = 0 <->
      getScheduleType m = ScheduleType.FixedDelta
      /\ (getScheduleRepetition m = 0
          \/ (getScheduleUnit m = ScheduleUnit.Days
              /\ getScheduleRepetition m = 2 ^ 25))).
Proof. exact (getScheduleDelta_range_and_zero m). Qed.

(** X7: [isActive] has no defined result exactly when [now] is inside the
    window and the mask is FixedDelta with repetition count 0, or with unit
    Days and repetition count 2^25; for every other descriptor and clock
    value it returns a boolean. *)
Theorem isActive_undefined_iff (s : Schedule) (now : Z) :
  isActive s now = Undefined <->
  checkSchedulePeriod now (frm s) (to s) = true
  /\ getScheduleType (msk s) = ScheduleType.FixedDelta
  /\ (getScheduleRepetition (msk s) = 0
      \/ (getScheduleUnit (msk s) = ScheduleUnit.Days
          /\ getScheduleRepetition (msk s) = 2 ^ 25)).
Proof.
  destruct (getScheduleDelta_range_and_zero (msk s)) as [_ Hz].
  split.
  - unfold isActive.
    destruct (checkSchedulePeriod now (frm s) (to s)); [|discriminate].
    destruct (checkScheduleMask now (msk s)); [|discriminate].
    unfold UInt.umod.
    destruct (Z.eqb_spec (getScheduleDelta (msk s)) 0) as [Hd|Hd].
    + intros _. split; [reflexivity|]. apply Hz, Hd.
    + cbn [obind]. destruct (_ <=? _); discriminate.
  - intros (Hw & Ht & Hr). apply isActive_zero_delta.
    + exact Hw.
    + apply checkScheduleMask_fixed, Ht.
    + apply Hz. split; assumption.
Qed.

Lemma getScheduleDelta_fixed_small_unit (m : Z) :
  getScheduleType m = ScheduleType.FixedDelta ->
  getScheduleUnit m = ScheduleUnit.Seconds
  \/ getScheduleUnit m = ScheduleUnit.Minutes ->
  getScheduleDelta m
  = getScheduleRepetition m * unitSeconds (getScheduleUnit m).
Proof.
  intros Ht Hu. rewrite (getScheduleDelta_fixed _ Ht).
  pose proof (getScheduleRepetition_range m) as Hr.
  unfold UInt.mul, UInt.wrap, UInt.modulus.
  rewrite (Z.mul_comm (unitSeconds _)). pow2_numerals.
  apply Z.mod_small.
  destruct Hu as [Hu|Hu]; rewrite Hu; cbn; lia.
Qed.

(** X8: for a FixedDelta mask the delta is the product
    repetition x unitSeconds(unit) exactly when that product fits 32 bits,
    which is always so for Seconds and Minutes; otherwise the delta is the
    product reduced modulo 2^32. *)
Theorem getScheduleDelta_fixed_exact (m : Z) :
  getScheduleType m = ScheduleType.FixedDelta ->
  getScheduleDelta m
    = (getScheduleRepetition m * unitSeconds (getScheduleUnit m)) mod 2 ^ 32
  /\ (getScheduleDelta m
        = getScheduleRepetition m * unitSeconds (getScheduleUnit m)
      <-> getScheduleRepetition m * unitSeconds (getScheduleUnit m) < 2 ^ 32)
  /\ (getScheduleUnit m = ScheduleUnit.Seconds
      \/ getScheduleUnit m = ScheduleUnit.Minutes ->
      getScheduleDelta m
        = getScheduleRepetition m * unitSeconds (getScheduleUnit m)).
Proof.
  intros Ht. rewrite (getScheduleDelta_fixed _ Ht).
  pose proof (getScheduleRepetition_range m) as Hr.
  unfold UInt.mul, UInt.wrap, UInt.modulus, ScheduleUnit.Seconds,
    ScheduleUnit.Minutes.
  rewrite (Z.mul_comm (unitSeconds _)).
  destruct (unitSeconds_cases _ (getScheduleUnit_range m))
    as [[Hu ->]|[[Hu ->]|[[Hu ->]|[Hu ->]]]];
    pow2_numerals;
    (split; [reflexivity|]); (split; [split; intros H|intros H]);
    Z.to_euclidean_division_equations; lia.
Qed.

Lemma getScheduleDelta_fixed_exact_witness :
  let m := 0x8400000C in   (* Hours, FixedDelta, repetition 12 *)
  getScheduleDelta m
    = (getScheduleRepetition m * unitSeconds (getScheduleUnit m)) mod 2 ^ 32
  /\ (getScheduleDelta m
        = getScheduleRepetition m * unitSeconds (getScheduleUnit m)
      <-> getScheduleRepetition m * unitSeconds (getScheduleUnit m) < 2 ^ 32)
  /\ (getScheduleUnit m = ScheduleUnit.Seconds
      \/ getScheduleUnit m = ScheduleUnit.Minutes ->
      getScheduleDelta m
        = getScheduleRepetition m * unitSeconds (getScheduleUnit m)).
Proof. apply (getScheduleDelta_fixed_exact 0x8400000C). reflexivity. Defined.

(** ** More on the evaluator *)

Lemma getScheduleDelta_pos (m : Z) :
  getScheduleDelta m <> 0 -> 0 < getScheduleDelta m.
Proof.
  destruct (getScheduleDelta_range_and_zero m) as [Hr _].
  unfold UInt.in_range in Hr. lia.
Qed.

Lemma isActive_true_cases (s : Schedule) (now : Z) :
  UInt.in_range now -> UInt.in_range (frm s) ->
  (isActive s now = Returns true <->
   frm s <= now /\ (now < to s \/ to s = 0)
   /\ checkScheduleMask now (msk s) = true
   /\ getScheduleDelta (msk s) <> 0
   /\ (now - frm s) mod getScheduleDelta (msk s) <= len s).
Proof.
  intros Hn Hf.
  destruct (checkSchedulePeriod now (frm s) (to s)) eqn:Hw.
  2:{ rewrite (isActive_outside_window _ _ Hw). split; [discriminate|].
      intros (H1 & H2 & _).
      assert (Ht : checkSchedulePeriod now (frm s) (to s) = true)
        by (apply checkSchedulePeriod_true; split; assumption).
      congruence. }
  destruct (checkScheduleMask now (msk s)) eqn:Hm.
  2:{ rewrite (isActive_no_match _ _ Hm). split; [discriminate|].
      intros (_ & _ & H & _). discriminate. }
  destruct (Z.eq_dec (getScheduleDelta (msk s)) 0) as [Hd|Hd].
  { rewrite (isActive_zero_delta _ _ Hw Hm Hd). split; [discriminate|].
    intros (_ & _ & _ & H & _). contradiction. }
  rewrite (isActive_occurrence _ _ Hn Hf Hw Hm Hd).
  apply checkSchedulePeriod_true in Hw. destruct Hw as [Hle Hup].
  split.
  - intros H. injection H as H. apply Z.leb_le in H. repeat split; assumption.
  - intros (_ & _ & _ & _ & H). f_equal. apply Z.leb_le, H.
Qed.

(** X9: [isActive] returns true exactly when [now] is inside the window, the
    mask matches, the delta is not 0 and the remainder of the signed
    difference [now - from] is at most [len]: inside the window the absolute
    difference of the code is the signed one. *)
Theorem isActive_true_iff (s : Schedule) (now : Z) :
  UInt.in_range now -> UInt.in_range (frm s) ->
  (isActive s now = Returns true <->
   frm s <= now /\ (now < to s \/ to s = 0)
   /\ checkScheduleMask now (msk s) = true
   /\ getScheduleDelta (msk s) <> 0
   /\ (now - frm s) mod getScheduleDelta (msk s) <= len s).
Proof. exact (isActive_true_cases s now). Qed.

Lemma isActive_true_iff_witness :
  isActive every_ten_seconds 31 = Returns true <->
  frm every_ten_seconds <= 31
  /\ (31 < to every_ten_seconds \/ to every_ten_seconds = 0)
  /\ checkScheduleMask 31 (msk every_ten_seconds) = true
  /\ getScheduleDelta (msk every_ten_seconds) <> 0
  /\ (31 - frm every_ten_seconds) mod getScheduleDelta (msk every_ten_seconds)
     <= len every_ten_seconds.
Proof.
  apply (isActive_true_iff every_ten_seconds 31);
    unfold UInt.in_range, UInt.modulus; cbn; lia.
Defined.

(** X10: a schedule is active at its start instant: with a non-empty window
    ([to = 0] or [from < to]), a mask that matches at [from] and a non-zero
    delta, [isActive(from)] is true for every length. *)
Theorem isActive_at_start (s : Schedule) :
  UInt.in_range (frm s) -> 0 <= len s ->
  to s = 0 \/ frm s < to s ->
  checkScheduleMask (frm s) (msk s) = true ->
  getScheduleDelta (msk s) <> 0 ->
  isActive s (frm s) = Returns true.
Proof.
  intros Hf Hl Hto Hm Hd.
  apply isActive_true_cases; try assumption.
  rewrite Z.sub_diag, Z.mod_0_l by assumption.
  repeat split; try assumption; lia.
Qed.

Lemma isActive_at_start_witness :
  isActive mondays_only (frm mondays_only) = Returns true.
Proof.
  apply (isActive_at_start mondays_only).
  - unfold UInt.in_range, UInt.modulus. cbn. lia.
  - cbn. lia.
  - left. reflexivity.
  - reflexivity.
  - discriminate.
Defined.

(** X11: when [len] is at least [delta - 1] the occurrence test never
    fails: the schedule is active at every instant of the window at which
    the mask matches. *)
Theorem isActive_saturated_length (s : Schedule) (now : Z) :
  UInt.in_range now -> UInt.in_range (frm s) ->
  checkSchedulePeriod now (frm s) (to s) = true ->
  checkScheduleMask now (msk s) = true ->
  getScheduleDelta (msk s) <> 0 ->
  getScheduleDelta (msk s) - 1 <= len s ->
  isActive s now = Returns true.
Proof.
  intros Hn Hf Hw Hm Hd Hl.
  rewrite (isActive_occurrence _ _ Hn Hf Hw Hm Hd). f_equal.
  apply Z.leb_le.
  pose proof (getScheduleDelta_pos _ Hd) as Hpos.
  pose proof (Z.mod_pos_bound (now - frm s) _ Hpos). lia.
Qed.

Lemma isActive_saturated_length_witness :
  isActive (mk_Schedule 100 0 59 0x44000001) 1234567 = Returns true.
Proof.
  apply (isActive_saturated_length (mk_Schedule 100 0 59 0x44000001) 1234567);
    first [ reflexivity | discriminate
          | unfold UInt.in_range, UInt.modulus; cbn; lia ].
Defined.

(** X12: a FixedDelta schedule is periodic: two instants of the window that
    are a whole number of deltas apart get the same answer. *)
Theorem isActive_fixed_periodic (s : Schedule) (now k : Z) :
  getScheduleType (msk s) = ScheduleType.FixedDelta ->
  UInt.in_range (frm s) ->
  UInt.in_range now ->
  UInt.in_range (now + k * getScheduleDelta (msk s)) ->
  checkSchedulePeriod now (frm s) (to s) = true ->
  checkSchedulePeriod (now + k * getScheduleDelta (msk s)) (frm s) (to s)
    = true ->
  isActive s (now + k * getScheduleDelta (msk s)) = isActive s now.
Proof.
  intros Ht Hf Hn Hn' Hw Hw'.
  destruct (Z.eq_dec (getScheduleDelta (msk s)) 0) as [Hd|Hd].
  - rewrite Hd, Z.mul_0_r, Z.add_0_r. reflexivity.
  - rewrite !isActive_occurrence;
      try assumption; try (apply checkScheduleMask_fixed, Ht).
    replace (now + k * getScheduleDelta (msk s) - frm s)
      with (now - frm s + k * getScheduleDelta (msk s)) by lia.
    rewrite Z_mod_plus_full. reflexivity.
Qed.

Lemma isActive_fixed_periodic_witness :
  isActive every_ten_seconds (7 + 5 * getScheduleDelta (msk every_ten_seconds))
  = isActive every_ten_seconds 7.
Proof.
  apply (isActive_fixed_periodic every_ten_seconds 7 5);
    first [ reflexivity | unfold UInt.in_range, UInt.modulus; cbn; lia ].
Defined.

(** X13: lengthening an occurrence never deactivates: if the schedule is
    active at [now], it is active at [now] with every larger [len], the
    other three fields being the same. *)
Theorem isActive_monotone_in_len (f t l l' m now : Z) :
  l <= l' ->
  isActive (mk_Schedule f t l m) now = Returns true ->
  isActive (mk_Schedule f t l' m) now = Returns true.
Proof.
  intros Hl. unfold isActive. cbn [frm to len msk].
  destruct (checkSchedulePeriod now f t); [|discriminate].
  destruct (checkScheduleMask now m); [|discriminate].
  destruct (UInt.umod _ _) as [r|]; [|discriminate]. cbn [obind].
  destruct (Z.leb_spec r l); [|discriminate].
  intros _. destruct (Z.leb_spec r l'); [reflexivity|lia].
Qed.

Lemma isActive_monotone_in_len_witness :
  isActive (mk_Schedule 0 0 7 0x0400000A) 12 = Returns true.
Proof.
  apply (isActive_monotone_in_len 0 0 2 7 0x0400000A 12); [lia|reflexivity].
Defined.

(** X17: for a FixedDelta mask in Seconds or Minutes with a repetition
    count other than 0, [isActive] is the conjunction of the window check
    and [(now - from) mod (repetition x unitSeconds(unit)) <= len]. *)
Theorem isActive_fixed_seconds_minutes (s : Schedule) (now : Z) :
  getScheduleType (msk s) = ScheduleType.FixedDelta ->
  getScheduleUnit (msk s) = ScheduleUnit.Seconds
  \/ getScheduleUnit (msk s) = ScheduleUnit.Minutes ->
  getScheduleRepetition (msk s) <> 0 ->
  UInt.in_range now -> UInt.in_range (frm s) ->
  isActive s now
  = Returns (checkSchedulePeriod now (frm s) (to s)
             && ((now - frm s)
                   mod (getScheduleRepetition (msk s)
                        * unitSeconds (getScheduleUnit (msk s)))
                 <=? len s)).
Proof.
  intros Ht Hu Hr Hn Hf.
  destruct (checkSchedulePeriod now (frm s) (to s)) eqn:Hw.
  2:{ apply isActive_outside_window, Hw. }
  rewrite <- (getScheduleDelta_fixed_small_unit _ Ht Hu). apply isActive_occurrence; try assumption.
  - apply checkScheduleMask_fixed, Ht.
  - intros H0. apply getScheduleDelta_range_and_zero in H0.
    destruct H0 as [_ [H0|[H0 _]]]; [contradiction|].
    unfold ScheduleUnit.Seconds, ScheduleUnit.Minutes, ScheduleUnit.Days in *.
    lia.
Qed.

(** Every 15 minutes for 90 seconds, from 2021-11-01 00:00:00 UTC. *)
Lemma isActive_fixed_seconds_minutes_witness :
  let s := mk_Schedule 1635724800 0 90 0x4400000F in
  isActive s 1635726660
  = Returns (checkSchedulePeriod 1635726660 (frm s) (to s)
             && ((1635726660 - frm s)
                   mod (getScheduleRepetition (msk s)
                        * unitSeconds (getScheduleUnit (msk s)))
                 <=? len s)).
Proof.
  apply (isActive_fixed_seconds_minutes
           (mk_Schedule 1635724800 0 90 0x4400000F) 1635726660);
    first [ reflexivity | right; reflexivity | discriminate
          | unfold UInt.in_range, UInt.modulus; cbn; lia ].
Defined.

(** ** Calendar masks *)

Lemma checkScheduleMask_monthly (now m : Z) :
  getScheduleType m = ScheduleType.Monthly ->
  checkScheduleMask now m = (getCurrentDay now =? getScheduleDay m).
Proof.
  intros Ht.
  unfold checkScheduleMask, isScheduleFixed, isScheduleOneShot,
    isScheduleWeekly, isScheduleMonthly, isScheduleYearly.
  rewrite Ht. cbn [Z.eqb ScheduleType.Weekly ScheduleType.FixedDelta
    ScheduleType.OneShot ScheduleType.Monthly ScheduleType.Yearly
    Pos.eqb orb andb].
  destruct (_ =? _); reflexivity.
Qed.

Lemma checkScheduleMask_yearly (now m : Z) :
  getScheduleType m = ScheduleType.Yearly ->
  checkScheduleMask now m
  = (getCurrentDay now =? getScheduleDay m)
    && (getCurrentMonth now =? getScheduleMonth m).
Proof.
  intros Ht.
  unfold checkScheduleMask, isScheduleFixed, isScheduleOneShot,
    isScheduleWeekly, isScheduleMonthly, isScheduleYearly.
  rewrite Ht. cbn [Z.eqb ScheduleType.Weekly ScheduleType.FixedDelta
    ScheduleType.OneShot ScheduleType.Monthly ScheduleType.Yearly
    Pos.eqb orb andb].
  destruct (_ && _); reflexivity.
Qed.

(** A schedule with the daily delta: the answer is the conjunction of the
    window check, the mask check and the occurrence test. *)
Lemma isActive_daily (s : Schedule) (now : Z) :
  UInt.in_range now -> UInt.in_range (frm s) ->
  getScheduleDelta (msk s) = DAYS ->
  isActive s now
  = Returns (checkSchedulePeriod now (frm s) (to s)
             && checkScheduleMask now (msk s)
             && ((now - frm s) mod 86400 <=? len s)).
Proof.
  intros Hn Hf Hd.
  destruct (checkSchedulePeriod now (frm s) (to s)) eqn:Hw.
  2:{ apply isActive_outside_window, Hw. }
  destruct (checkScheduleMask now (msk s)) eqn:Hm.
  2:{ apply isActive_no_match, Hm. }
  rewrite (isActive_occurrence _ _ Hn Hf Hw Hm).
  - rewrite Hd. reflexivity.
  - rewrite Hd. discriminate.
Qed.

(** X14: a Monthly schedule is active exactly when [now] is inside the
    window, the day of the month of [now] equals the low byte of the mask,
    and [(now - from) mod 86400 <= len]. *)
Theorem isActive_monthly (s : Schedule) (now : Z) :
  getScheduleType (msk s) = ScheduleType.Monthly ->
  UInt.in_range now -> UInt.in_range (frm s) ->
  getScheduleDelta (msk s) = 86400
  /\ isActive s now
     = Returns (checkSchedulePeriod now (frm s) (to s)
                && (tm_mday (gmtime now) =? getScheduleDay (msk s))
                && ((now - frm s) mod 86400 <=? len s)).
Proof.
  intros Ht Hn Hf.
  assert (Hd : getScheduleDelta (msk s) = DAYS).
  { rewrite getScheduleDelta_not_fixed; rewrite Ht; [reflexivity|discriminate]. }
  split; [exact Hd|].
  rewrite (isActive_daily _ _ Hn Hf Hd), (checkScheduleMask_monthly _ _ Ht).
  reflexivity.
Qed.

(** Monthly on day 15, from 2021-11-01 00:00:00 UTC, for two hours. *)
Lemma isActive_monthly_witness :
  let s := mk_Schedule 1635724800 0 7200 0x0C00000F in
  (* 2021-12-15 01:00:00 UTC *)
  getScheduleDelta (msk s) = 86400
  /\ isActive s 1639530000
     = Returns (checkSchedulePeriod 1639530000 (frm s) (to s)
                && (tm_mday (gmtime 1639530000) =? getScheduleDay (msk s))
                && ((1639530000 - frm s) mod 86400 <=? len s)).
Proof.
  apply (isActive_monthly (mk_Schedule 1635724800 0 7200 0x0C00000F) 1639530000);
    first [ reflexivity | unfold UInt.in_range, UInt.modulus; cbn; lia ].
Defined.

(** X15: a Yearly schedule is active exactly when [now] is inside the
    window, the day of the month equals the low byte of the mask, the month
    (0 = January) equals its second byte, and
    [(now - from) mod 86400 <= len]. *)
Theorem isActive_yearly (s : Schedule) (now : Z) :
  getScheduleType (msk s) = ScheduleType.Yearly ->
  UInt.in_range now -> UInt.in_range (frm s) ->
  getScheduleDelta (msk s) = 86400
  /\ isActive s now
     = Returns (checkSchedulePeriod now (frm s) (to s)
                && ((tm_mday (gmtime now) =? getScheduleDay (msk s))
                    && (tm_mon (gmtime now) =? getScheduleMonth (msk s)))
                && ((now - frm s) mod 86400 <=? len s)).
Proof.
  intros Ht Hn Hf.
  assert (Hd : getScheduleDelta (msk s) = DAYS).
  { rewrite getScheduleDelta_not_fixed; rewrite Ht; [reflexivity|discriminate]. }
  split; [exact Hd|].
  rewrite (isActive_daily _ _ Hn Hf Hd), (checkScheduleMask_yearly _ _ Ht).
  reflexivity.
Qed.

(** Yearly on 25 December (month 11), from 2021-11-01 00:00:00 UTC. *)
Lemma isActive_yearly_witness :
  let s := mk_Schedule 1635724800 0 7200 0x10000B19 in
  (* 2022-12-25 00:30:00 UTC *)
  getScheduleDelta (msk s) = 86400
  /\ isActive s 1671928200
     = Returns (checkSchedulePeriod 1671928200 (frm s) (to s)
                && ((tm_mday (gmtime 1671928200) =? getScheduleDay (msk s))
                    && (tm_mon (gmtime 1671928200) =? getScheduleMonth (msk s)))
                && ((1671928200 - frm s) mod 86400 <=? len s)).
Proof.
  apply (isActive_yearly (mk_Schedule 1635724800 0 7200 0x10000B19) 1671928200);
    first [ reflexivity | unfold UInt.in_range, UInt.modulus; cbn; lia ].
Defined.

Lemma testbit_low7 (w : Z) : 0 <= w < 7 -> Z.testbit 127 w = true.
Proof.
  intros Hw.
  assert (Hc : w = 0 \/ w = 1 \/ w = 2 \/ w = 3 \/ w = 4 \/ w = 5 \/ w = 6)
    by lia.
  destruct Hc as [ -> | [ -> | [ -> | [ -> | [ -> | [ -> | -> ] ] ] ] ] ];
    reflexivity.
Qed.

Lemma weekmask_testbit (m w : Z) :
  0 <= w < 7 ->
  Z.testbit (getScheduleWeekMask m) w = Z.testbit (Z.land m 0x7F) w.
Proof.
  intros Hw. unfold getScheduleWeekMask, SCHEDULE_WEEK_MASK.
  rewrite !Z.land_spec, (testbit_low7 _ Hw).
  assert (H255 : Z.testbit 255 w = true).
  { change 255 with (Z.lor 127 128).
    rewrite Z.lor_spec, (testbit_low7 _ Hw). reflexivity. }
  rewrite H255. reflexivity.
Qed.

(** X16: only the seven low bits of a Weekly mask are looked at.  With none
    of them set the schedule is never active, whatever bit 7 and the other
    fields are; with all seven set the mask matches at every instant. *)
Theorem isActive_weekly_day_bits (s : Schedule) (now : Z) :
  getScheduleType (msk s) = ScheduleType.Weekly ->
  (Z.land (msk s) 0x7F = 0 -> isActive s now = Returns false)
  /\ (Z.land (msk s) 0x7F = 0x7F -> checkScheduleMask now (msk s) = true).
Proof.
  intros Ht.
  pose proof (tm_wday_range now) as Hw.
  rewrite (checkScheduleMask_weekly now _ Ht), (weekmask_testbit _ _ Hw).
  split; intros H.
  - apply isActive_no_match.
    rewrite (checkScheduleMask_weekly now _ Ht), (weekmask_testbit _ _ Hw), H.
    apply Z.bits_0.
  - rewrite H. apply testbit_low7, Hw.
Qed.

Lemma isActive_weekly_day_bits_witness :
  isActive (mk_Schedule 0 0 4294967295 0x08000080) 1635724800 = Returns false
  /\ checkScheduleMask 1635724800 0x0800007F = true.
Proof.
  split.
  - destruct (isActive_weekly_day_bits
                (mk_Schedule 0 0 4294967295 0x08000080) 1635724800) as [H _];
      [reflexivity|]. apply H. reflexivity.
  - destruct (isActive_weekly_day_bits
                (mk_Schedule 0 0 0 0x0800007F) 1635724800) as [_ H];
      [reflexivity|]. apply H. reflexivity.
Defined.

(** ** Comparison and assignment of descriptors *)

(** X18: [==] holds exactly when the four fields agree, [!=] is its
    negation, and after [a = b] the descriptor [a] compares equal to [b];
    descriptors that compare equal are active at the same instants. *)
Theorem Schedule_comparisons (a b : Schedule) (now : Z) :
  (Schedule_eq a b = true <->
   frm a = frm b /\ to a = to b /\ len a = len b /\ msk a = msk b)
  /\ (Schedule_ne a b = true <-> a <> b)
  /\ Schedule_eq (Schedule_assign a b) b = true
  /\ (Schedule_eq a b = true -> isActive a now = isActive b now).
Proof.
  split; [|split; [|split]].
  - unfold Schedule_eq. rewrite !andb_true_iff, !Z.eqb_eq. tauto.
  - unfold Schedule_ne.
    rewrite negb_true_iff, <- not_true_iff_false, Schedule_eq_true.
    reflexivity.
  - rewrite Schedule_assign_eq. apply Schedule_eq_refl.
  - intros H. apply Schedule_eq_true in H. subst b. reflexivity.
Qed.

Lemma Schedule_comparisons_witness :
  isActive (Schedule_assign (mk_Schedule 9 9 9 9) every_ten_seconds) 12
  = isActive every_ten_seconds 12.
Proof.
  destruct (Schedule_comparisons
              (Schedule_assign (mk_Schedule 9 9 9 9) every_ten_seconds)
              every_ten_seconds 12) as (_ & _ & _ & H).
  apply H. reflexivity.
Defined.

(** ** More on the tracker *)

Lemma isDifferentFromCloud_false (c : CloudSchedule.t) :
  CloudSchedule.isDifferentFromCloud c = false <->
  CloudSchedule._value c = CloudSchedule._cloud_value c.
Proof.
  unfold CloudSchedule.isDifferentFromCloud, Schedule_ne.
  rewrite negb_false_iff. apply Schedule_eq_true.
Qed.

(** X19: [fromCloudToLocal] (pull) copies the cloud descriptor over the
    local one and changes nothing else: the cloud side and the modification
    timestamp stay as they were, and the tracker is not divergent
    afterwards. *)
Theorem fromCloudToLocal_effect (c : CloudSchedule.t) :
  let c' := CloudSchedule.fromCloudToLocal c in
  CloudSchedule._value c' = CloudSchedule._cloud_value c
  /\ CloudSchedule._cloud_value c' = CloudSchedule._cloud_value c
  /\ CloudSchedule.base c' = CloudSchedule.base c
  /\ CloudSchedule.isDifferentFromCloud c' = false.
Proof.
  cbv zeta.
  assert (Hv : CloudSchedule._value (CloudSchedule.fromCloudToLocal c)
               = CloudSchedule._cloud_value c).
  { unfold CloudSchedule.fromCloudToLocal. cbn [CloudSchedule._value].
    apply Schedule_assign_eq. }
  split; [exact Hv|]. split; [reflexivity|]. split; [reflexivity|].
  apply isDifferentFromCloud_false. rewrite Hv. reflexivity.
Qed.

Lemma fromLocalToCloud_unfold (c : CloudSchedule.t) :
  CloudSchedule.fromLocalToCloud c
  = CloudSchedule.mk (CloudSchedule._value c) (CloudSchedule._value c)
      (CloudSchedule.base c).
Proof.
  unfold CloudSchedule.fromLocalToCloud. rewrite Schedule_assign_eq.
  reflexivity.
Qed.

Lemma fromCloudToLocal_unfold (c : CloudSchedule.t) :
  CloudSchedule.fromCloudToLocal c
  = CloudSchedule.mk (CloudSchedule._cloud_value c)
      (CloudSchedule._cloud_value c) (CloudSchedule.base c).
Proof.
  unfold CloudSchedule.fromCloudToLocal. rewrite Schedule_assign_eq.
  reflexivity.
Qed.

(** X20: once the two sides agree, neither direction of synchronisation
    changes the tracker: a pull after a push and a push after a pull do
    nothing, and both operations are idempotent. *)
Theorem sync_operations_compose (c : CloudSchedule.t) :
  CloudSchedule.fromCloudToLocal (CloudSchedule.fromLocalToCloud c)
  = CloudSchedule.fromLocalToCloud c
  /\ CloudSchedule.fromLocalToCloud (CloudSchedule.fromCloudToLocal c)
     = CloudSchedule.fromCloudToLocal c
  /\ CloudSchedule.fromLocalToCloud (CloudSchedule.fromLocalToCloud c)
     = CloudSchedule.fromLocalToCloud c
  /\ CloudSchedule.fromCloudToLocal (CloudSchedule.fromCloudToLocal c)
     = CloudSchedule.fromCloudToLocal c.
Proof.
  rewrite !fromLocalToCloud_unfold, !fromCloudToLocal_unfold.
  cbn [CloudSchedule._value CloudSchedule._cloud_value CloudSchedule.base].
  repeat split.
Qed.

(** X21: a tracker that is not divergent is left unchanged by a push and
    by a pull. *)
Theorem sync_noop_when_not_divergent (c : CloudSchedule.t) :
  CloudSchedule.isDifferentFromCloud c = false ->
  CloudSchedule.fromLocalToCloud c = c
  /\ CloudSchedule.fromCloudToLocal c = c.
Proof.
  intros H. apply isDifferentFromCloud_false in H.
  rewrite fromLocalToCloud_unfold, fromCloudToLocal_unfold.
  destruct c as [v cv b]. cbn in *. subst cv. split; reflexivity.
Qed.

Lemma sync_noop_when_not_divergent_witness :
  let c := CloudSchedule.make (mk_Property 5) 1 2 3 4 in
  CloudSchedule.fromLocalToCloud c = c
  /\ CloudSchedule.fromCloudToLocal c = c.
Proof.
  apply (sync_noop_when_not_divergent
           (CloudSchedule.make (mk_Property 5) 1 2 3 4)).
  reflexivity.
Defined.

(** X22: the default-constructed tracker holds the all-zero descriptor on
    both sides, is not divergent, and is active at the clock values 0 and
    0xFFFFFFFF only. *)
Theorem make_default_activity (p : Property) (now : Z) :
  UInt.in_range now ->
  CloudSchedule.getValue (CloudSchedule.make_default p) = mk_Schedule 0 0 0 0
  /\ CloudSchedule.getCloudValue (CloudSchedule.make_default p)
     = mk_Schedule 0 0 0 0
  /\ CloudSchedule.isDifferentFromCloud (CloudSchedule.make_default p) = false
  /\ CloudSchedule.isActive (CloudSchedule.make_default p) now
     = Returns ((now =? 0) || (now =? 0xFFFFFFFF)).
Proof.
  intros Hn. do 3 (split; [reflexivity|]).
  unfold CloudSchedule.isActive, CloudSchedule.make_default.
  cbn [CloudSchedule._value].
  rewrite isActive_occurrence; try assumption.
  - cbn [frm len msk]. rewrite Z.sub_0_r. f_equal.
    change (getScheduleDelta 0) with 4294967295.
    unfold UInt.in_range, UInt.modulus in Hn. pow2_numerals.
    destruct (Z.eqb_spec now 0) as [->|H0]; [reflexivity|].
    destruct (Z.eqb_spec now 4294967295) as [->|H1]; [reflexivity|].
    cbn [orb]. apply Z.leb_gt. rewrite Z.mod_small by lia. lia.
  - unfold UInt.in_range, UInt.modulus. cbn. lia.
  - apply checkSchedulePeriod_true. unfold UInt.in_range in Hn. cbn. lia.
  - reflexivity.
  - discriminate.
Qed.

Lemma make_default_activity_witness :
  CloudSchedule.isActive (CloudSchedule.make_default (mk_Property 0)) 1635724800
  = Returns ((1635724800 =? 0) || (1635724800 =? 0xFFFFFFFF)).
Proof.
  apply (make_default_activity (mk_Property 0) 1635724800).
  unfold UInt.in_range, UInt.modulus. lia.
Defined.

(** X23: the tracker's [isActive] follows the local descriptor only: after
    [setLocal(s)] it is the activity of [s], after a pull it is the activity
    of the cloud descriptor, and a push or a deserialization into the cloud
    side does not change it. *)
Theorem tracker_isActive_follows_local
    (c : CloudSchedule.t) (s : Schedule) (clock now : Z) (inbound : list Z) :
  CloudSchedule.isActive (CloudSchedule.assign clock c s) now = isActive s now
  /\ CloudSchedule.isActive (CloudSchedule.fromCloudToLocal c) now
     = isActive (CloudSchedule.getCloudValue c) now
  /\ CloudSchedule.isActive (CloudSchedule.fromLocalToCloud c) now
     = CloudSchedule.isActive c now
  /\ CloudSchedule.isActive
       (fst (CloudSchedule.setAttributesFromCloud c inbound)) now
     = CloudSchedule.isActive c now.
Proof.
  unfold CloudSchedule.isActive.
  rewrite assign_value, fromCloudToLocal_unfold.
  split; [reflexivity|]. split; [reflexivity|]. split; [reflexivity|].
  unfold CloudSchedule.setAttributesFromCloud.
  destruct (setAttribute _ inbound) as [f i1].
  destruct (setAttribute _ i1) as [e i2].
  destruct (setAttribute _ i2) as [l i3].
  destruct (setAttribute _ i3) as [m i4]. reflexivity.
Qed.

(** X24: [setLocal] keeps only the last descriptor assigned, and a pull
    after [setLocal(s)] discards [s]: the local side is the cloud descriptor
    again while the modification timestamp remains the one [setLocal]
    wrote. *)
Theorem assign_then_sync
    (c : CloudSchedule.t) (s1 s2 : Schedule) (clock1 clock2 : Z) :
  CloudSchedule.assign clock2 (CloudSchedule.assign clock1 c s1) s2
  = CloudSchedule.assign clock2 c s2
  /\ CloudSchedule._value
       (CloudSchedule.fromCloudToLocal (CloudSchedule.assign clock1 c s1))
     = CloudSchedule._cloud_value c
  /\ last_local_change_timestamp
       (CloudSchedule.base
          (CloudSchedule.fromCloudToLocal (CloudSchedule.assign clock1 c s1)))
     = clock1
  /\ CloudSchedule.getCloudValue
       (CloudSchedule.fromLocalToCloud (CloudSchedule.assign clock1 c s1))
     = s1.
Proof.
  rewrite fromCloudToLocal_unfold, fromLocalToCloud_unfold.
  split; [reflexivity|]. split; [reflexivity|]. split; [reflexivity|].
  unfold CloudSchedule.getCloudValue. cbn [CloudSchedule._cloud_value].
  apply assign_value.
Qed.

(** X25: deserialization writes the cloud side only, whatever the inbound
    sequence holds: the local descriptor and the base part are kept; and
    reading back what the tracker itself serialized has the effect of a
    push. *)
Theorem setAttributesFromCloud_frame (c : CloudSchedule.t) (inbound : list Z) :
  CloudSchedule._value (fst (CloudSchedule.setAttributesFromCloud c inbound))
  = CloudSchedule._value c
  /\ CloudSchedule.base (fst (CloudSchedule.setAttributesFromCloud c inbound))
     = CloudSchedule.base c
  /\ fst (CloudSchedule.setAttributesFromCloud c
            (snd (CloudSchedule.appendAttributesToCloud c [])))
     = CloudSchedule.fromLocalToCloud c.
Proof.
  split; [|split].
  - unfold CloudSchedule.setAttributesFromCloud.
    destruct (setAttribute _ inbound) as [f i1].
    destruct (setAttribute _ i1) as [e i2].
    destruct (setAttribute _ i2) as [l i3].
    destruct (setAttribute _ i3) as [m i4]. reflexivity.
  - unfold CloudSchedule.setAttributesFromCloud.
    destruct (setAttribute _ inbound) as [f i1].
    destruct (setAttribute _ i1) as [e i2].
    destruct (setAttribute _ i2) as [l i3].
    destruct (setAttribute _ i3) as [m i4]. reflexivity.
  - rewrite fromLocalToCloud_unfold.
    destruct c as [[f e l m] cv b]. reflexivity.
Qed.

(** ** Calendar fields outside the calendar *)

Lemma gmtime_ranges (time : Z) :
  1 <= tm_mday (gmtime time) <= 31 /\ 0 <= tm_mon (gmtime time) <= 11.
Proof.
  unfold gmtime. cbn [tm_mday tm_mon].
  set (z := time / 86400 + 719468).
  set (doe := z - z / 146097 * 146097).
  assert (Hdoe : 0 <= doe <= 146096).
  { subst doe. Z.to_euclidean_division_equations. lia. }
  clearbody doe. clear z.
  set (yoe := (doe - doe / 1460 + doe / 36524 - doe / 146096) / 365).
  set (doy := doe - (365 * yoe + yoe / 4 - yoe / 100)).
  assert (Hdoy : 0 <= doy <= 365).
  { subst doy yoe. Z.to_euclidean_division_equations. lia. }
  clearbody doy. clear yoe Hdoe doe.
  set (mp := (5 * doy + 2) / 153).
  assert (Hmp : 0 <= mp <= 11 /\ 1 <= doy - (153 * mp + 2) / 5 + 1 <= 31).
  { subst mp. Z.to_euclidean_division_equations. lia. }
  clearbody mp. destruct Hmp as [Hmp Hd].
  split; [exact Hd|].
  destruct (Z.ltb_spec mp 10); lia.
Qed.

(** X26: the day of the month of an instant is in 1..31 and its month in
    0..11, so a Monthly mask whose day byte is 0 or above 31, and a Yearly
    mask whose day byte is 0 or above 31 or whose month byte is above 11,
    is never active. *)
Theorem isActive_calendar_field_out_of_range (s : Schedule) (now : Z) :
  (getScheduleType (msk s) = ScheduleType.Monthly ->
   getScheduleDay (msk s) = 0 \/ 31 < getScheduleDay (msk s) ->
   isActive s now = Returns false)
  /\ (getScheduleType (msk s) = ScheduleType.Yearly ->
      getScheduleDay (msk s) = 0 \/ 31 < getScheduleDay (msk s)
      \/ 11 < getScheduleMonth (msk s) ->
      isActive s now = Returns false).
Proof.
  destruct (gmtime_ranges now) as [Hd Hm].
  split; intros Ht Hf; apply isActive_no_match.
  - rewrite (checkScheduleMask_monthly _ _ Ht). unfold getCurrentDay.
    apply Z.eqb_neq. lia.
  - rewrite (checkScheduleMask_yearly _ _ Ht).
    unfold getCurrentDay, getCurrentMonth.
    destruct (Z.eqb_spec (tm_mday (gmtime now)) (getScheduleDay (msk s)));
      [|reflexivity].
    destruct (Z.eqb_spec (tm_mon (gmtime now)) (getScheduleMonth (msk s)));
      [|reflexivity].
    lia.
Qed.

Lemma isActive_calendar_field_out_of_range_witness :
  (* Monthly on day 32 *)
  isActive (mk_Schedule 0 0 4294967295 0x0C000020) 1639530000 = Returns false
  (* Yearly on day 25 of month 12 *)
  /\ isActive (mk_Schedule 0 0 4294967295 0x10000C19) 1671928200
     = Returns false.
Proof.
  split.
  - destruct (isActive_calendar_field_out_of_range
                (mk_Schedule 0 0 4294967295 0x0C000020) 1639530000) as [H _].
    apply H; [reflexivity|]. right. cbn. lia.
  - destruct (isActive_calendar_field_out_of_range
                (mk_Schedule 0 0 4294967295 0x10000C19) 1671928200) as [_ H].
    apply H; [reflexivity|]. right. right. cbn. lia.
Defined.
